(** * Data contracts of the Alchemy SDK ([src/types/types.ts])

    The source file declares TypeScript interfaces, enums and unions and no
    executable code.  The embedding therefore has two layers:

    - a universe [value] of JavaScript runtime values (what a response is once
      it has been parsed, what a caller passes as a request), and a syntax
      [ty] of the type constructors the file uses, with the structural
      membership test [has_type] of TypeScript under [strictNullChecks];
    - one definition per declared type, transcribed field by field from the
      source and keeping its name.

    Statements about "every value of type T" are statements about every
    [v] with [has_type T v = true]. *)

From stdpp Require Import gmap strings list fin_maps.
From Stdlib Require Import ZArith Bool Ascii String.

Local Set Warnings "-register-all".
Local Open Scope string_scope.

(** ** Runtime values *)

(** A JavaScript value.  An object is a finite map from property names to
    values.  The payload of a [number] is never inspected by any declaration
    of the file, so an integer carrier stands for it. *)
Inductive value : Type :=
| VUndefined
| VNull
| VBool (b : bool)
| VNum (n : Z)
| VStr (s : string)
| VArr (xs : list value)
| VObj (props : gmap string value).

(** Object literal [{ k1: v1, ..., kn: vn }]. *)
Definition obj (l : list (string * value)) : value := VObj (list_to_map l).

(** Property read [v.k]: [undefined] when the property is absent or [v] is
    not an object. *)
Definition get (k : string) (v : value) : value :=
  match v with
  | VObj m => default VUndefined (m !! k)
  | _ => VUndefined
  end.

(** The JavaScript test [k in v]. *)
Definition has_prop (k : string) (v : value) : bool :=
  match v with
  | VObj m => bool_decide (is_Some (m !! k))
  | _ => false
  end.

Definition is_undefined (v : value) : bool :=
  match v with VUndefined => true | _ => false end.

(** [v === null] *)
Definition is_null (v : value) : bool :=
  match v with VNull => true | _ => false end.

(** ** Types *)

(** The type constructors used by [types.ts].  A string enum is kept with its
    member names and their runtime values.  An interface is its list of
    property declarations and, when it has one, the value type of its string
    index signature ([Record<string, T>]).  A property declaration is its
    name, whether it is optional ([k?: T]), and its type. *)
Inductive ty : Type :=
| TAny
| TString
| TNumber
| TBoolean
| TNull
| TLitBool (b : bool)
| TLitStr (s : string)
| TEnum (members : list (string * string))
| TArray (elem : ty)
| TUnion (l r : ty)
| TInterface (props : list (string * (bool * ty))) (index : option ty).

Definition prop_decl : Type := string * (bool * ty).

(** [k: T] and [k?: T]. *)
Definition req (k : string) (t : ty) : prop_decl := (k, (false, t)).
Definition opt (k : string) (t : ty) : prop_decl := (k, (true, t)).

Definition declares (ps : list prop_decl) (k : string) : bool :=
  existsb (fun p => String.eqb k p.1) ps.

(** One declared property against an object: a required property must be
    present with a value of its type; an optional one may be absent or
    [undefined]. *)
Definition prop_ok (chk : ty -> value -> bool) (m : gmap string value)
    (p : prop_decl) : bool :=
  let '(k, (o, pt)) := p in
  match m !! k with
  | None => o
  | Some x => (o && is_undefined x) || chk pt x
  end.

(** The index signature, when there is one, types every property that is
    not declared by name. *)
Definition index_ok (chk : ty -> value -> bool) (ps : list prop_decl)
    (idx : option ty) (m : gmap string value) : bool :=
  match idx with
  | None => true
  | Some it =>
      forallb (fun kx => declares ps kx.1 || chk it kx.2) (map_to_list m)
  end.

(** Structural membership of a value in a type.  Interfaces are open: an
    object may carry properties the interface does not declare.  [null] and
    [undefined] inhabit no type but [null], [any] and (for [undefined]) an
    optional property.  Only objects are taken to inhabit an interface: none
    of the interfaces of the file declares a property that a primitive or an
    array has, and the compiler's weak-type check keeps those out of the
    interfaces whose properties are all optional. *)
Fixpoint has_type (t : ty) (v : value) {struct t} : bool :=
  match t with
  | TAny => true
  | TString => match v with VStr _ => true | _ => false end
  | TNumber => match v with VNum _ => true | _ => false end
  | TBoolean => match v with VBool _ => true | _ => false end
  | TNull => is_null v
  | TLitBool b => match v with VBool c => Bool.eqb b c | _ => false end
  | TLitStr s => match v with VStr c => String.eqb s c | _ => false end
  | TEnum ms =>
      match v with
      | VStr c => existsb (fun m => String.eqb c m.2) ms
      | _ => false
      end
  | TArray e => match v with VArr xs => forallb (has_type e) xs | _ => false end
  | TUnion a b => has_type a v || has_type b v
  | TInterface ps idx =>
      match v with
      | VObj m =>
          forallb (fun p => let '(k, (o, pt)) := p in
                     match m !! k with
                     | None => o
                     | Some x => (o && is_undefined x) || has_type pt x
                     end) ps
          && match idx with
             | None => true
             | Some it =>
                 forallb (fun kx => declares ps kx.1 || has_type it kx.2)
                   (map_to_list m)
             end
      | _ => false
      end
  end.

(** The declaration of property [k] in an interface: [Some (optional, T)],
    or [None] when the interface does not declare it by name. *)
Fixpoint lookup_decl (ps : list prop_decl) (k : string)
    : option (bool * ty) :=
  match ps with
  | [] => None
  | (k', d) :: ps' => if String.eqb k k' then Some d else lookup_decl ps' k
  end.

Definition declared_as (t : ty) (k : string) : option (bool * ty) :=
  match t with
  | TInterface ps _ => lookup_decl ps k
  | _ => None
  end.

(** [interface D extends B { own }]: the properties [own] declares, then
    those of [B] that [own] does not redeclare; the index signature of [B]
    is inherited. *)
Definition interface_extends (base : ty) (own : list prop_decl) : ty :=
  match base with
  | TInterface bps idx =>
      TInterface (own ++ List.filter (fun p => negb (declares own p.1)) bps) idx
  | _ => TInterface own None
  end.

(** [Record<string, T>] *)
Definition TRecord (t : ty) : ty := TInterface [] (Some t).

(** [T | null] *)
Definition nullable (t : ty) : ty := TUnion t TNull.

(** The property names a fresh object literal may use against a type without
    tripping the compiler's excess-property check: those declared by the
    type, by any member of a union (one without a discriminant property),
    or anything under an index signature. *)
Fixpoint known_property (t : ty) (k : string) : bool :=
  match t with
  | TAny => true
  | TUnion a b => known_property a k || known_property b k
  | TInterface ps idx =>
      declares ps k || match idx with Some _ => true | None => false end
  | _ => false
  end.

Definition literal_ok (t : ty) (l : list (string * value)) : bool :=
  has_type t (obj l) && forallb (fun kx => known_property t kx.1) l.

(** ** The declarations of [types.ts] *)

(** *** Token balances *)

Definition TokenBalanceSuccess : ty :=
  TInterface
    [ req "contractAddress" TString;
      req "tokenBalance" TString;
      req "error" TNull ] None.

Definition TokenBalanceFailure : ty :=
  TInterface
    [ req "contractAddress" TString;
      req "tokenBalance" TNull;
      req "error" TString ] None.

Definition TokenBalance : ty := TUnion TokenBalanceSuccess TokenBalanceFailure.

Definition TokenBalancesResponse : ty :=
  TInterface
    [ req "address" TString;
      req "tokenBalances" (TArray TokenBalance) ] None.

Definition TokenBalancesResponseErc20 : ty :=
  interface_extends TokenBalancesResponse [ opt "pageKey" TString ].

(** *** Asset transfers *)

Definition AssetTransfersCategory : ty :=
  TEnum
    [ ("EXTERNAL", "external");
      ("INTERNAL", "internal");
      ("ERC20", "erc20");
      ("ERC721", "erc721");
      ("ERC1155", "erc1155");
      ("SPECIALNFT", "specialnft") ].

Definition AssetTransfersOrder : ty :=
  TEnum [ ("ASCENDING", "asc"); ("DESCENDING", "desc") ].

Definition AssetTransfersParams : ty :=
  TInterface
    [ opt "fromBlock" TString;
      opt "toBlock" TString;
      opt "order" AssetTransfersOrder;
      opt "fromAddress" TString;
      opt "toAddress" TString;
      opt "contractAddresses" (TArray TString);
      opt "excludeZeroValue" TBoolean;
      req "category" (TArray AssetTransfersCategory);
      opt "maxCount" TNumber;
      opt "pageKey" TString;
      opt "withMetadata" TBoolean ] None.

Definition AssetTransfersWithMetadataParams : ty :=
  interface_extends AssetTransfersParams [ req "withMetadata" (TLitBool true) ].

Definition ERC1155Metadata : ty :=
  TInterface [ req "tokenId" TString; req "value" TString ] None.

Definition RawContract : ty :=
  TInterface
    [ req "value" (nullable TString);
      req "address" (nullable TString);
      req "decimal" (nullable TString) ] None.

Definition AssetTransfersResult : ty :=
  TInterface
    [ req "category" AssetTransfersCategory;
      req "blockNum" TString;
      req "from" TString;
      req "to" (nullable TString);
      req "value" (nullable TNumber);
      req "erc721TokenId" (nullable TString);
      req "erc1155Metadata" (nullable (TArray ERC1155Metadata));
      req "tokenId" (nullable TString);
      req "asset" (nullable TString);
      req "hash" TString;
      req "rawContract" RawContract ] None.

Definition AssetTransfersMetadata : ty :=
  TInterface [ req "blockTimestamp" TString ] None.

Definition AssetTransfersWithMetadataResult : ty :=
  interface_extends AssetTransfersResult
    [ req "metadata" AssetTransfersMetadata ].

Definition AssetTransfersResponse : ty :=
  TInterface
    [ req "transfers" (TArray AssetTransfersResult);
      opt "pageKey" TString ] None.

Definition AssetTransfersWithMetadataResponse : ty :=
  TInterface
    [ req "transfers" (TArray AssetTransfersWithMetadataResult);
      opt "pageKey" TString ] None.

(** *** NFT metadata and NFT queries *)

Definition NftMetadata : ty :=
  interface_extends (TRecord TAny)
    [ opt "name" TString;
      opt "description" TString;
      opt "image" TString;
      opt "external_url" TString;
      opt "background_color" TString;
      opt "attributes" (TArray (TRecord TAny)) ].

Definition NftExcludeFilters : ty := TEnum [ ("SPAM", "SPAM") ].

Definition GetNftsForOwnerOptions : ty :=
  TInterface
    [ opt "pageKey" TString;
      opt "contractAddresses" (TArray TString);
      opt "excludeFilters" (TArray NftExcludeFilters);
      opt "pageSize" TNumber;
      opt "omitMetadata" TBoolean;
      opt "tokenUriTimeoutInMs" TNumber ] None.

Definition GetBaseNftsForOwnerOptions : ty :=
  TInterface
    [ opt "pageKey" TString;
      opt "contractAddresses" (TArray TString);
      opt "excludeFilters" (TArray NftExcludeFilters);
      opt "pageSize" TNumber;
      req "omitMetadata" (TLitBool true);
      opt "tokenUriTimeoutInMs" TNumber ] None.

Definition GetNftsForContractOptions : ty :=
  TInterface
    [ opt "pageKey" TString;
      opt "omitMetadata" TBoolean;
      opt "pageSize" TNumber;
      opt "tokenUriTimeoutInMs" TNumber ] None.

Definition GetBaseNftsForContractOptions : ty :=
  TInterface
    [ opt "pageKey" TString;
      req "omitMetadata" (TLitBool false);
      opt "pageSize" TNumber ] None.

(** *** Contract refresh *)

Definition RefreshState : ty :=
  TEnum
    [ ("DOES_NOT_EXIST", "does_not_exist");
      ("ALREADY_QUEUED", "already_queued");
      ("IN_PROGRESS", "in_progress");
      ("FINISHED", "finished");
      ("QUEUED", "queued");
      ("QUEUE_FAILED", "queue_failed") ].

Definition RefreshContractResult : ty :=
  TInterface
    [ req "contractAddress" TString;
      req "refreshState" RefreshState;
      req "progress" (nullable TString) ] None.

(** *** Transaction receipts *)

Definition TransactionReceiptsBlockNumber : ty :=
  TInterface [ req "blockNumber" TString ] None.

Definition TransactionReceiptsBlockHash : ty :=
  TInterface [ req "blockHash" TString ] None.

Definition TransactionReceiptsParams : ty :=
  TUnion TransactionReceiptsBlockNumber TransactionReceiptsBlockHash.

(** [TransactionReceipt] is imported from [@ethersproject/abstract-provider]
    and is a parameter here. *)
Definition TransactionReceiptsResponse (TransactionReceipt : ty) : ty :=
  TInterface [ req "receipts" (nullable (TArray TransactionReceipt)) ] None.

(** *** Private transactions *)

Definition SendPrivateTransactionOptions : ty :=
  TInterface [ req "fast" TBoolean ] None.

(** *** Settings, networks and token-balance requests *)

(** [E.MEMBER] used as a type: the literal type of the member's runtime
    value. *)
Definition enum_member (e : ty) (name : string) : ty :=
  match e with
  | TEnum ms =>
      match List.find (fun m => String.eqb name m.1) ms with
      | Some m => TLitStr m.2
      | None => TEnum []
      end
  | _ => TEnum []
  end.



Definition TokenBalanceType : ty :=
  TEnum [ ("DEFAULT_TOKENS", "DEFAULT_TOKENS"); ("ERC20", "erc20") ].

Definition TokenBalancesOptionsErc20 : ty :=
  TInterface
    [ req "type" (enum_member TokenBalanceType "ERC20");
      opt "pageKey" TString ] None.

Definition TokenBalancesOptionsDefaultTokens : ty :=
  TInterface
    [ req "type" (enum_member TokenBalanceType "DEFAULT_TOKENS") ] None.

Definition TokenMetadataResponse : ty :=
  TInterface
    [ req "name" (nullable TString);
      req "symbol" (nullable TString);
      req "decimals" (nullable TNumber);
      req "logo" (nullable TString) ] None.

(** *** NFT records and responses *)

Definition NftTokenType : ty :=
  TEnum [ ("ERC721", "ERC721"); ("ERC1155", "ERC1155"); ("UNKNOWN", "UNKNOWN") ].

Definition TokenUri : ty :=
  TInterface [ req "raw" TString; req "gateway" TString ] None.

Definition Media : ty :=
  TInterface
    [ req "raw" TString;
      req "gateway" TString;
      opt "thumbnail" TString;
      opt "format" TString;
      opt "size" TNumber ] None.

Definition SpamInfo : ty :=
  TInterface
    [ req "isSpam" TBoolean;
      req "classifications" (TArray TString) ] None.

(** [Nft] and [BaseNft] are imported from [../api/nft] and are parameters
    of the declarations that mention them.  The [readonly] modifier of the
    response records restricts assignment, not the values a record may
    hold. *)
Definition OwnedNft (Nft : ty) : ty :=
  interface_extends Nft [ req "balance" TNumber ].

Definition OwnedBaseNft (BaseNft : ty) : ty :=
  interface_extends BaseNft [ req "balance" TNumber ].

Definition OwnedNftsResponse (Nft : ty) : ty :=
  TInterface
    [ req "ownedNfts" (TArray (OwnedNft Nft));
      opt "pageKey" TString;
      req "totalCount" TNumber ] None.

Definition OwnedBaseNftsResponse (BaseNft : ty) : ty :=
  TInterface
    [ req "ownedNfts" (TArray (OwnedBaseNft BaseNft));
      opt "pageKey" TString;
      req "totalCount" TNumber ] None.

Definition GetOwnersForNftResponse : ty :=
  TInterface [ req "owners" (TArray TString) ] None.

Definition GetOwnersForContractResponse : ty :=
  TInterface [ req "owners" (TArray TString) ] None.

Definition NftContractBaseNftsResponse (BaseNft : ty) : ty :=
  TInterface
    [ req "nfts" (TArray BaseNft);
      opt "pageKey" TString ] None.

Definition NftContractNftsResponse (Nft : ty) : ty :=
  TInterface
    [ req "nfts" (TArray Nft);
      opt "pageKey" TString ] None.

(** *** Floor prices *)

Definition FloorPriceMarketplace : ty :=
  TInterface
    [ req "floorPrice" TNumber;
      req "priceCurrency" TString;
      req "collectionUrl" TString;
      req "retrievedAt" TString ] None.

Definition FloorPriceError : ty :=
  TInterface [ req "error" TString ] None.

Definition GetFloorPriceResponse : ty :=
  TInterface
    [ req "openSea" (TUnion FloorPriceMarketplace FloorPriceError);
      req "looksRare" (TUnion FloorPriceMarketplace FloorPriceError) ] None.

(** *** Contract deployment and event filters *)

Definition DeployResult : ty :=
  TInterface
    [ opt "deployerAddress" TString;
      req "blockNumber" TNumber ] None.

Definition AlchemyPendingTransactionsEventFilter : ty :=
  TInterface
    [ req "method" (TLitStr "alchemy_pendingTransactions");
      opt "fromAddress" (TUnion TString (TArray TString));
      opt "toAddress" (TUnion TString (TArray TString));
      opt "hashesOnly" TBoolean ] None.

(** [EventType] is imported from [@ethersproject/abstract-provider]. *)
Definition AlchemyEventType (EventType : ty) : ty :=
  TUnion EventType AlchemyPendingTransactionsEventFilter.

(** ** Declaration-level queries *)

Definition declared_names (t : ty) : list string :=
  match t with
  | TInterface ps _ => map fst ps
  | _ => []
  end.

Definition all_optional (t : ty) : bool :=
  match t with
  | TInterface ps _ => forallb (fun p => p.2.1) ps
  | _ => false
  end.

Definition index_signature (t : ty) : option ty :=
  match t with
  | TInterface _ idx => idx
  | _ => None
  end.

(** [/^\d+$/], the shape the specification gives for a non-null
    [progress]. *)
Definition is_digit (c : ascii) : bool :=
  let n := nat_of_ascii c in (48 <=? n)%nat && (n <=? 57)%nat.

Definition all_digits (s : string) : bool :=
  match String.list_ascii_of_string s with
  | [] => false
  | cs => forallb is_digit cs
  end.


Definition admits (ps : list prop_decl) (k : string) (x : value) : bool :=
  forallb (fun p => negb (String.eqb k p.1) || has_type p.2.2 x) ps.



(** The shape of an address filter of a pending-transactions subscription:
    left out, one address, or a list of addresses. *)
Definition address_filter (v : value) : Prop :=
  v = VUndefined
  \/ (exists a, v = VStr a)
  \/ (exists xs, v = VArr xs /\ Forall (fun x => exists a, x = VStr a) xs).

(** ** Sample values *)

Definition balance_ok : value :=
  obj [ ("contractAddress", VStr "0xdac17f958d2ee523a2206206994597c13d831ec7");
        ("tokenBalance", VStr "0x2a");
        ("error", VNull) ].

Definition balance_failed : value :=
  obj [ ("contractAddress", VStr "0xdac17f958d2ee523a2206206994597c13d831ec7");
        ("tokenBalance", VNull);
        ("error", VStr "execution reverted") ].

(** A receipts request that names the block twice. *)
Definition receipts_by_number_and_hash : list (string * value) :=
  [ ("blockNumber", VStr "0x10");
    ("blockHash", VStr "0x5a1e") ].

Definition receipts_by_number : value := obj [ ("blockNumber", VStr "0x10") ].

Definition raw_eth : value :=
  obj [ ("value", VStr "0x1"); ("address", VNull); ("decimal", VStr "0x12") ].

(** An [external] transfer that nevertheless carries an ERC721 token id and
    ERC1155 metadata. *)
Definition transfer_external_with_tokens : value :=
  obj [ ("category", VStr "external");
        ("blockNum", VStr "0x10");
        ("from", VStr "0xaa");
        ("to", VStr "0xbb");
        ("value", VNum 1);
        ("erc721TokenId", VStr "0x01");
        ("erc1155Metadata",
           VArr [ obj [ ("tokenId", VStr "0x02"); ("value", VStr "0x01") ] ]);
        ("tokenId", VNull);
        ("asset", VStr "ETH");
        ("hash", VStr "0xcc");
        ("rawContract", raw_eth) ].

(** An [erc721] transfer without a token id, and an [erc1155] transfer
    without ERC1155 metadata. *)
Definition transfer_erc721_without_id : value :=
  obj [ ("category", VStr "erc721");
        ("blockNum", VStr "0x10");
        ("from", VStr "0xaa");
        ("to", VStr "0xbb");
        ("value", VNull);
        ("erc721TokenId", VNull);
        ("erc1155Metadata", VArr []);
        ("tokenId", VNull);
        ("asset", VNull);
        ("hash", VStr "0xcc");
        ("rawContract", raw_eth) ].

Definition transfer_erc1155_without_metadata : value :=
  obj [ ("category", VStr "erc1155");
        ("blockNum", VStr "0x10");
        ("from", VStr "0xaa");
        ("to", VStr "0xbb");
        ("value", VNull);
        ("erc721TokenId", VNull);
        ("erc1155Metadata", VNull);
        ("tokenId", VNull);
        ("asset", VNull);
        ("hash", VStr "0xcc");
        ("rawContract", raw_eth) ].

Definition refresh (state : string) (progress : value) : value :=
  obj [ ("contractAddress", VStr "0xaa");
        ("refreshState", VStr state);
        ("progress", progress) ].

Definition receipts_not_found : value := obj [ ("receipts", VNull) ].
Definition receipts_empty_block : value := obj [ ("receipts", VArr []) ].

Definition transfers_request : value :=
  obj [ ("category", VArr [ VStr "erc20" ]); ("withMetadata", VBool true) ].

Definition owner_base_request : value :=
  obj [ ("omitMetadata", VBool true); ("pageSize", VNum 50) ].

Definition erc20_balances_request : value :=
  obj [ ("type", VStr "erc20"); ("pageKey", VStr "0x2f") ].

Definition token_metadata_unknown : value :=
  obj [ ("name", VNull); ("symbol", VNull); ("decimals", VNull);
        ("logo", VNull) ].

Definition floor_quote : value :=
  obj [ ("floorPrice", VNum 12);
        ("priceCurrency", VStr "ETH");
        ("collectionUrl", VStr "https://opensea.io/collection/x");
        ("retrievedAt", VStr "2022-08-01T00:00:00.000Z") ].

Definition floor_prices : value :=
  obj [ ("openSea", floor_quote);
        ("looksRare", obj [ ("error", VStr "unable to fetch floor price") ]) ].

Definition transfer_with_metadata : value :=
  obj [ ("category", VStr "erc20");
        ("blockNum", VStr "0x10");
        ("from", VStr "0xaa");
        ("to", VStr "0xbb");
        ("value", VNum 5);
        ("erc721TokenId", VNull);
        ("erc1155Metadata", VNull);
        ("tokenId", VNull);
        ("asset", VStr "USDC");
        ("hash", VStr "0xcc");
        ("rawContract", raw_eth);
        ("metadata", obj [ ("blockTimestamp", VStr "2022-08-01T00:00:00.000Z") ]) ].

Definition transfers_with_metadata_page : value :=
  obj [ ("transfers", VArr [ transfer_with_metadata ]);
        ("pageKey", VStr "0x2f") ].

Definition balances_page : value :=
  obj [ ("address", VStr "0xaa");
        ("tokenBalances", VArr [ balance_ok; balance_failed ]);
        ("pageKey", VStr "0x2f") ].

Definition pending_filter : value :=
  obj [ ("method", VStr "alchemy_pendingTransactions");
        ("fromAddress", VArr [ VStr "0xaa"; VStr "0xbb" ]);
        ("toAddress", VStr "0xcc");
        ("hashesOnly", VBool true) ].

Definition media_item : value :=
  obj [ ("raw", VStr "ipfs://x"); ("gateway", VStr "https://ipfs.io/x");
        ("format", VStr "png") ].

(** Stand-ins for the imported [BaseNft] and [Nft], used to instantiate the
    statements that take the two types as parameters. *)
Definition sample_BaseNft : ty :=
  TInterface [ req "tokenId" TString; req "tokenType" NftTokenType ] None.

Definition sample_Nft : ty :=
  interface_extends sample_BaseNft [ req "title" TString ].

Definition sample_nft : value :=
  obj [ ("tokenId", VStr "0x01"); ("tokenType", VStr "ERC721");
        ("title", VStr "Ape"); ("balance", VNum 1) ].

Definition owned_nfts_page : value :=
  obj [ ("ownedNfts", VArr [ sample_nft ]); ("totalCount", VNum 1) ].

Definition contract_nfts_page : value :=
  obj [ ("nfts", VArr [ sample_nft ]); ("pageKey", VStr "0x2f") ].

(** ** Inversion of the membership test *)

Lemma has_type_interface ps idx m :
  has_type (TInterface ps idx) (VObj m)
  = forallb (prop_ok has_type m) ps && index_ok has_type ps idx m.
Proof. reflexivity. Qed.

Lemma has_type_union a b v :
  has_type (TUnion a b) v = has_type a v || has_type b v.
Proof. reflexivity. Qed.

Lemma has_type_object ps idx v :
  has_type (TInterface ps idx) v = true -> exists m, v = VObj m.
Proof. destruct v; try discriminate. eauto. Qed.

(** A required property is present, with a value of its type. *)
Lemma has_type_required ps idx v k t :
  has_type (TInterface ps idx) v = true ->
  In (req k t) ps ->
  has_prop k v = true /\ has_type t (get k v) = true.
Proof.
  intros Hv Hin. destruct (has_type_object _ _ _ Hv) as [m ->].
  rewrite has_type_interface in Hv. apply andb_true_iff in Hv as [Hps _].
  rewrite forallb_forall in Hps. specialize (Hps _ Hin).
  unfold req, prop_ok in Hps. simpl. destruct (m !! k) as [x|] eqn:E.
  - split; [by apply bool_decide_eq_true | exact Hps].
  - discriminate.
Qed.

(** An optional property is absent, [undefined], or of its type. *)
Lemma has_type_optional ps idx v k t :
  has_type (TInterface ps idx) v = true ->
  In (opt k t) ps ->
  get k v = VUndefined \/ has_type t (get k v) = true.
Proof.
  intros Hv Hin. destruct (has_type_object _ _ _ Hv) as [m ->].
  rewrite has_type_interface in Hv. apply andb_true_iff in Hv as [Hps _].
  rewrite forallb_forall in Hps. specialize (Hps _ Hin).
  unfold opt, prop_ok in Hps. simpl. destruct (m !! k) as [x|] eqn:E; simpl.
  - apply orb_true_iff in Hps as [Hu | Ht]; [left | by right].
    by destruct x.
  - by left.
Qed.

Lemma has_type_string v : has_type TString v = true -> exists s, v = VStr s.
Proof. destruct v; try discriminate. eauto. Qed.

Lemma has_type_boolean v : has_type TBoolean v = true -> exists b, v = VBool b.
Proof. destruct v; try discriminate. eauto. Qed.

Lemma has_type_null v : has_type TNull v = true -> v = VNull.
Proof. by destruct v. Qed.

Lemma has_type_lit_bool b v : has_type (TLitBool b) v = true -> v = VBool b.
Proof.
  destruct v as [| |c| | | |]; try discriminate. simpl.
  intros H. apply Bool.eqb_prop in H. by subst.
Qed.

Lemma has_type_enum ms v :
  has_type (TEnum ms) v = true -> exists s, v = VStr s /\ In s (map snd ms).
Proof.
  destruct v as [| | | |s| |]; try discriminate. simpl. intros H.
  exists s. split; [done|]. apply existsb_exists in H as [[n c] [Hin Heq]].
  apply String.eqb_eq in Heq. simpl in Heq. subst.
  apply in_map_iff. by exists (n, c).
Qed.

Lemma has_type_array e v :
  has_type (TArray e) v = true ->
  exists xs, v = VArr xs /\ Forall (fun x => has_type e x = true) xs.
Proof.
  destruct v as [| | | | |xs|]; try discriminate. simpl. intros H.
  exists xs. split; [done|]. apply Forall_forall. intros x Hx.
  rewrite forallb_forall in H. apply H. by apply list_elem_of_In.
Qed.

Lemma has_type_nullable t v :
  has_type (nullable t) v = true -> v = VNull \/ has_type t v = true.
Proof.
  unfold nullable. rewrite has_type_union. intros H.
  apply orb_true_iff in H as [H|H]; [by right | left; by apply has_type_null].
Qed.

(** A string is never [null]. *)
Lemma string_not_null v : has_type TString v = true -> is_null v = false.
Proof. intros [s ->]%has_type_string. reflexivity. Qed.

(** ** Token balances *)

(** C1. For every value of [TokenBalance], exactly one of [tokenBalance]
    and [error] is non-null: [(tokenBalance === null) !== (error === null)],
    that is, [tokenBalance] is null if and only if [error] is not. *)
Theorem TokenBalance_exactly_one_populated (v : value) :
  has_type TokenBalance v = true ->
  is_null (get "tokenBalance" v) = negb (is_null (get "error" v)).
Proof.
  unfold TokenBalance. rewrite has_type_union. intros H.
  apply orb_true_iff in H as [H|H].
  - destruct (has_type_required _ _ _ "tokenBalance" TString H) as [_ Hb];
      [simpl; auto|].
    destruct (has_type_required _ _ _ "error" TNull H) as [_ He];
      [simpl; auto|].
    apply string_not_null in Hb. apply has_type_null in He.
    by rewrite Hb, He.
  - destruct (has_type_required _ _ _ "tokenBalance" TNull H) as [_ Hb];
      [simpl; auto|].
    destruct (has_type_required _ _ _ "error" TString H) as [_ He];
      [simpl; auto|].
    apply string_not_null in He. apply has_type_null in Hb.
    by rewrite Hb, He.
Qed.

Lemma TokenBalance_exactly_one_populated_witness :
  has_type TokenBalance balance_failed = true
  /\ is_null (get "tokenBalance" balance_failed)
     = negb (is_null (get "error" balance_failed)).
Proof.
  split; [vm_compute; reflexivity|].
  apply (TokenBalance_exactly_one_populated balance_failed).
  vm_compute; reflexivity.
Defined.

(** X1.  The two members of [TokenBalance] are disjoint: [error] is [null] in one
    and a string in the other, so [error] discriminates the union. *)
Lemma TokenBalance_variants_disjoint (v : value) :
  has_type TokenBalanceSuccess v = true ->
  has_type TokenBalanceFailure v = false.
Proof.
  intros Hs. destruct (has_type TokenBalanceFailure v) eqn:Hf; [|reflexivity].
  destruct (has_type_required _ _ _ "error" TNull Hs) as [_ H1];
    [simpl; auto|].
  destruct (has_type_required _ _ _ "error" TString Hf) as [_ H2];
    [simpl; auto|].
  apply has_type_null in H1. rewrite H1 in H2. discriminate.
Qed.

Lemma TokenBalance_variants_disjoint_witness :
  has_type TokenBalanceSuccess balance_ok = true
  /\ has_type TokenBalanceFailure balance_ok = false.
Proof.
  split; [vm_compute; reflexivity|].
  apply (TokenBalance_variants_disjoint balance_ok). vm_compute; reflexivity.
Defined.

(** C8. Every [TokenBalance], success or failure, carries [contractAddress]
    as a (non-null) string. *)
Theorem TokenBalance_contractAddress_string (v : value) :
  has_type TokenBalance v = true ->
  has_prop "contractAddress" v = true
  /\ exists s, get "contractAddress" v = VStr s.
Proof.
  unfold TokenBalance. rewrite has_type_union. intros H.
  apply orb_true_iff in H as [H|H];
    (destruct (has_type_required _ _ _ "contractAddress" TString H) as [Hp Ha];
     [simpl; auto|]; split; [exact Hp | by apply has_type_string]).
Qed.

Lemma TokenBalance_contractAddress_string_witness :
  has_type TokenBalance balance_failed = true
  /\ has_prop "contractAddress" balance_failed = true
  /\ exists s, get "contractAddress" balance_failed = VStr s.
Proof.
  split; [vm_compute; reflexivity|].
  apply (TokenBalance_contractAddress_string balance_failed).
  vm_compute; reflexivity.
Defined.

(** ** Transaction receipts: the request *)

(** C3, counterexample to "exactly one".  The union
    [TransactionReceiptsBlockNumber | TransactionReceiptsBlockHash] is not
    exclusive: an object that names the block both ways is a value of
    the type, and as a fresh object literal it passes the excess-property
    check too, each property being declared by a member of the union. *)
Lemma TransactionReceiptsParams_admits_both :
  has_type TransactionReceiptsParams (obj receipts_by_number_and_hash) = true
  /\ literal_ok TransactionReceiptsParams receipts_by_number_and_hash = true
  /\ has_prop "blockNumber" (obj receipts_by_number_and_hash) = true
  /\ has_prop "blockHash" (obj receipts_by_number_and_hash) = true
  /\ xorb (has_prop "blockNumber" (obj receipts_by_number_and_hash))
          (has_prop "blockHash" (obj receipts_by_number_and_hash)) = false.
Proof. repeat split; vm_compute; reflexivity. Qed.

(** C3 (amended). Every value of [TransactionReceiptsParams] supplies at
    least one of [blockNumber] and [blockHash], as a string: no value of the
    type carries neither. *)
Theorem TransactionReceiptsParams_at_least_one (v : value) :
  has_type TransactionReceiptsParams v = true ->
  (has_prop "blockNumber" v = true /\ exists s, get "blockNumber" v = VStr s)
  \/ (has_prop "blockHash" v = true /\ exists s, get "blockHash" v = VStr s).
Proof.
  unfold TransactionReceiptsParams. rewrite has_type_union. intros H.
  apply orb_true_iff in H as [H|H]; [left | right].
  - destruct (has_type_required _ _ _ "blockNumber" TString H) as [Hp Hs];
      [simpl; auto|].
    split; [exact Hp | by apply has_type_string].
  - destruct (has_type_required _ _ _ "blockHash" TString H) as [Hp Hs];
      [simpl; auto|].
    split; [exact Hp | by apply has_type_string].
Qed.

Lemma TransactionReceiptsParams_at_least_one_witness :
  has_type TransactionReceiptsParams receipts_by_number = true
  /\ ((has_prop "blockNumber" receipts_by_number = true
       /\ exists s, get "blockNumber" receipts_by_number = VStr s)
      \/ (has_prop "blockHash" receipts_by_number = true
          /\ exists s, get "blockHash" receipts_by_number = VStr s)).
Proof.
  split; [vm_compute; reflexivity|].
  apply (TransactionReceiptsParams_at_least_one receipts_by_number).
  vm_compute; reflexivity.
Defined.

(** ** Asset transfers: the result record *)

(** C4, counterexample to the two "if and only if".
    [AssetTransfersResult] is one flat record: the nullness of
    [erc721TokenId] and of [erc1155Metadata] is not tied to [category].  An
    [external] transfer may carry both, an [erc721] transfer may lack its
    token id and carry ERC1155 metadata, and an [erc1155] transfer may lack
    its metadata. *)
Lemma AssetTransfersResult_fields_not_tied_to_category :
  (has_type AssetTransfersResult transfer_external_with_tokens = true
   /\ get "category" transfer_external_with_tokens = VStr "external"
   /\ is_null (get "erc721TokenId" transfer_external_with_tokens) = false
   /\ is_null (get "erc1155Metadata" transfer_external_with_tokens) = false)
  /\ (has_type AssetTransfersResult transfer_erc721_without_id = true
      /\ get "category" transfer_erc721_without_id = VStr "erc721"
      /\ is_null (get "erc721TokenId" transfer_erc721_without_id) = true
      /\ is_null (get "erc1155Metadata" transfer_erc721_without_id) = false)
  /\ (has_type AssetTransfersResult transfer_erc1155_without_metadata = true
      /\ get "category" transfer_erc1155_without_metadata = VStr "erc1155"
      /\ is_null (get "erc1155Metadata" transfer_erc1155_without_metadata)
         = true).
Proof. repeat split; vm_compute; reflexivity. Qed.

(** C4 (amended). For every [AssetTransfersResult] value, [category] is one
    of the six values of [AssetTransfersCategory]; [erc721TokenId] is null or
    a string; [erc1155Metadata] is null or a list of [ERC1155Metadata]
    records. *)
Theorem AssetTransfersResult_category_and_nullable_fields (v : value) :
  has_type AssetTransfersResult v = true ->
  (exists c, get "category" v = VStr c
             /\ In c [ "external"; "internal"; "erc20"; "erc721"; "erc1155";
                       "specialnft" ])
  /\ (get "erc721TokenId" v = VNull \/ exists s, get "erc721TokenId" v = VStr s)
  /\ (get "erc1155Metadata" v = VNull
      \/ exists xs, get "erc1155Metadata" v = VArr xs
                    /\ Forall (fun x => has_type ERC1155Metadata x = true) xs).
Proof.
  intros H. unfold AssetTransfersResult in H.
  destruct (has_type_required _ _ _ "category" AssetTransfersCategory H)
    as [_ Hc]; [simpl; auto|].
  destruct (has_type_required _ _ _ "erc721TokenId" (nullable TString) H)
    as [_ Hi]; [simpl; auto 10|].
  destruct (has_type_required _ _ _ "erc1155Metadata"
              (nullable (TArray ERC1155Metadata)) H)
    as [_ Hm]; [simpl; auto 10|].
  split; [|split].
  - apply has_type_enum in Hc as (c & -> & Hin). by exists c.
  - apply has_type_nullable in Hi as [->|Hi]; [by left | right].
    by apply has_type_string.
  - apply has_type_nullable in Hm as [->|Hm]; [by left | right].
    by apply has_type_array.
Qed.

Lemma AssetTransfersResult_category_and_nullable_fields_witness :
  has_type AssetTransfersResult transfer_erc721_without_id = true
  /\ (exists c, get "category" transfer_erc721_without_id = VStr c
                /\ In c [ "external"; "internal"; "erc20"; "erc721"; "erc1155";
                          "specialnft" ])
  /\ (get "erc721TokenId" transfer_erc721_without_id = VNull
      \/ exists s, get "erc721TokenId" transfer_erc721_without_id = VStr s)
  /\ (get "erc1155Metadata" transfer_erc721_without_id = VNull
      \/ exists xs,
           get "erc1155Metadata" transfer_erc721_without_id = VArr xs
           /\ Forall (fun x => has_type ERC1155Metadata x = true) xs).
Proof.
  split; [vm_compute; reflexivity|].
  apply (AssetTransfersResult_category_and_nullable_fields
           transfer_erc721_without_id).
  vm_compute; reflexivity.
Defined.

(** ** Contract refresh *)

(** C6, counterexample to the dependence of [progress] on the state.
    [RefreshContractResult] types [progress] as [string | null] whatever the
    state: a [queued] refresh may carry a progress, an [in_progress] one may
    carry none, and a progress need not be a string of digits. *)
Lemma RefreshContractResult_progress_not_tied_to_state :
  (has_type RefreshContractResult (refresh "queued" (VStr "50")) = true
   /\ get "refreshState" (refresh "queued" (VStr "50")) = VStr "queued"
   /\ is_null (get "progress" (refresh "queued" (VStr "50"))) = false)
  /\ (has_type RefreshContractResult (refresh "in_progress" VNull) = true
      /\ get "refreshState" (refresh "in_progress" VNull) = VStr "in_progress"
      /\ is_null (get "progress" (refresh "in_progress" VNull)) = true)
  /\ (has_type RefreshContractResult (refresh "finished" (VStr "n/a")) = true
      /\ get "refreshState" (refresh "finished" (VStr "n/a")) = VStr "finished"
      /\ get "progress" (refresh "finished" (VStr "n/a")) = VStr "n/a"
      /\ all_digits "n/a" = false).
Proof. repeat split; vm_compute; reflexivity. Qed.

(** C6 (amended). For every [RefreshContractResult] value, [refreshState] is
    one of the six values of [RefreshState], and [progress] is null or a
    string. *)
Theorem RefreshContractResult_state_and_progress (v : value) :
  has_type RefreshContractResult v = true ->
  (exists s, get "refreshState" v = VStr s
             /\ In s [ "does_not_exist"; "already_queued"; "in_progress";
                       "finished"; "queued"; "queue_failed" ])
  /\ (get "progress" v = VNull \/ exists p, get "progress" v = VStr p).
Proof.
  intros H. unfold RefreshContractResult in H.
  destruct (has_type_required _ _ _ "refreshState" RefreshState H)
    as [_ Hs]; [simpl; auto|].
  destruct (has_type_required _ _ _ "progress" (nullable TString) H)
    as [_ Hp]; [simpl; auto|].
  split.
  - apply has_type_enum in Hs as (s & -> & Hin). by exists s.
  - apply has_type_nullable in Hp as [->|Hp]; [by left | right].
    by apply has_type_string.
Qed.

Lemma RefreshContractResult_state_and_progress_witness :
  has_type RefreshContractResult (refresh "finished" (VStr "100")) = true
  /\ (exists s, get "refreshState" (refresh "finished" (VStr "100")) = VStr s
                /\ In s [ "does_not_exist"; "already_queued"; "in_progress";
                          "finished"; "queued"; "queue_failed" ])
  /\ (get "progress" (refresh "finished" (VStr "100")) = VNull
      \/ exists p, get "progress" (refresh "finished" (VStr "100")) = VStr p).
Proof.
  split; [vm_compute; reflexivity|].
  apply (RefreshContractResult_state_and_progress
           (refresh "finished" (VStr "100"))).
  vm_compute; reflexivity.
Defined.

(** ** Asset transfers: the metadata variants *)

Lemma AssetTransfersWithMetadataParams_flat :
  AssetTransfersWithMetadataParams
  = TInterface
      [ req "withMetadata" (TLitBool true);
        opt "fromBlock" TString;
        opt "toBlock" TString;
        opt "order" AssetTransfersOrder;
        opt "fromAddress" TString;
        opt "toAddress" TString;
        opt "contractAddresses" (TArray TString);
        opt "excludeZeroValue" TBoolean;
        req "category" (TArray AssetTransfersCategory);
        opt "maxCount" TNumber;
        opt "pageKey" TString ] None.
Proof. reflexivity. Qed.

Lemma AssetTransfersWithMetadataResult_flat :
  AssetTransfersWithMetadataResult
  = TInterface
      [ req "metadata" AssetTransfersMetadata;
        req "category" AssetTransfersCategory;
        req "blockNum" TString;
        req "from" TString;
        req "to" (nullable TString);
        req "value" (nullable TNumber);
        req "erc721TokenId" (nullable TString);
        req "erc1155Metadata" (nullable (TArray ERC1155Metadata));
        req "tokenId" (nullable TString);
        req "asset" (nullable TString);
        req "hash" TString;
        req "rawContract" RawContract ] None.
Proof. reflexivity. Qed.

(** A value is an [AssetTransfersWithMetadataParams] exactly when it is an
    [AssetTransfersParams] whose [withMetadata] is [true]. *)
Lemma AssetTransfersWithMetadataParams_values (v : value) :
  has_type AssetTransfersWithMetadataParams v
  = has_type AssetTransfersParams v
    && has_type (TLitBool true) (get "withMetadata" v).
Proof.
  destruct v as [| | | | | |m]; try reflexivity.
  rewrite AssetTransfersWithMetadataParams_flat. unfold AssetTransfersParams.
  rewrite !has_type_interface.
  cbn [forallb prop_ok req opt index_ok get].
  destruct (m !! "withMetadata") as [x|]; cbn [default].
  - destruct x as [| |[]| | | |]; cbn [has_type is_undefined Bool.eqb orb andb];
      rewrite ?andb_true_r, ?andb_false_r; reflexivity.
  - cbn [has_type andb]. rewrite ?andb_true_r, ?andb_false_r. reflexivity.
Qed.

(** A value is an [AssetTransfersWithMetadataResult] exactly when it is an
    [AssetTransfersResult] that has a [metadata] property holding an
    [AssetTransfersMetadata]. *)
Lemma AssetTransfersWithMetadataResult_values (v : value) :
  has_type AssetTransfersWithMetadataResult v
  = has_type AssetTransfersResult v
    && has_type AssetTransfersMetadata (get "metadata" v).
Proof.
  destruct v as [| | | | | |m]; try reflexivity.
  rewrite AssetTransfersWithMetadataResult_flat.
  unfold AssetTransfersResult at 1.
  rewrite !has_type_interface.
  cbn [forallb prop_ok req opt index_ok get].
  destruct (m !! "metadata") as [x|]; cbn [default orb andb].
  - rewrite ?andb_true_r. apply andb_comm.
  - rewrite ?andb_true_r, ?andb_false_r. reflexivity.
Qed.

(** C5. [AssetTransfersWithMetadataParams] is [AssetTransfersParams] plus the
    required literal field [withMetadata: true]: it declares [withMetadata]
    as required with the literal type [true], declares every other property
    as the base does, and its values are the base values whose
    [withMetadata] is [true].  [AssetTransfersWithMetadataResult] declares
    [metadata] as a required [AssetTransfersMetadata], and its values are
    the [AssetTransfersResult] values that carry one. *)
Theorem AssetTransfersWithMetadata_variants :
  AssetTransfersWithMetadataParams
  = interface_extends AssetTransfersParams
      [ req "withMetadata" (TLitBool true) ]
  /\ declared_as AssetTransfersWithMetadataParams "withMetadata"
     = Some (false, TLitBool true)
  /\ (forall k, k <> "withMetadata" ->
        declared_as AssetTransfersWithMetadataParams k
        = declared_as AssetTransfersParams k)
  /\ (forall v,
        has_type AssetTransfersWithMetadataParams v
        = has_type AssetTransfersParams v
          && has_type (TLitBool true) (get "withMetadata" v))
  /\ declared_as AssetTransfersWithMetadataResult "metadata"
     = Some (false, AssetTransfersMetadata)
  /\ (forall v,
        has_type AssetTransfersWithMetadataResult v
        = has_type AssetTransfersResult v
          && has_type AssetTransfersMetadata (get "metadata" v))
  /\ (forall v,
        has_type AssetTransfersWithMetadataResult v = true ->
        has_prop "metadata" v = true
        /\ exists t, get "blockTimestamp" (get "metadata" v) = VStr t).
Proof.
  split; [reflexivity|]. split; [reflexivity|]. split.
  { intros k Hk. rewrite AssetTransfersWithMetadataParams_flat.
    unfold AssetTransfersParams, declared_as, req, opt.
    cbn [lookup_decl].
    destruct (String.eqb k "withMetadata") eqn:E.
    - apply String.eqb_eq in E. contradiction.
    - repeat match goal with
             | |- context [String.eqb k ?s] =>
                 destruct (String.eqb k s); [reflexivity|]
             end.
      reflexivity. }
  split; [exact AssetTransfersWithMetadataParams_values|].
  split; [reflexivity|].
  split; [exact AssetTransfersWithMetadataResult_values|].
  intros v H. rewrite AssetTransfersWithMetadataResult_flat in H.
  destruct (has_type_required _ _ _ "metadata" AssetTransfersMetadata H)
    as [Hp Hm]; [simpl; auto|].
  split; [exact Hp|].
  destruct (has_type_required _ _ _ "blockTimestamp" TString Hm) as [_ Ht];
    [simpl; auto|].
  by apply has_type_string.
Qed.

Lemma AssetTransfersWithMetadata_variants_witness :
  has_type AssetTransfersWithMetadataParams transfers_request
  = has_type AssetTransfersParams transfers_request
    && has_type (TLitBool true) (get "withMetadata" transfers_request)
  /\ has_type AssetTransfersWithMetadataParams transfers_request = true.
Proof.
  split.
  - destruct AssetTransfersWithMetadata_variants as (_ & _ & _ & H & _).
    exact (H transfers_request).
  - vm_compute; reflexivity.
Defined.

(** ** Transaction receipts: the response *)

(** C7. [receipts] is typed list-or-null.  The response whose [receipts] is
    [null] (block not found) and the response whose [receipts] is the empty
    list (block without transactions) are both values of
    [TransactionReceiptsResponse], they are different values, and the
    [=== null] test tells them apart; every value of the type holds [null] or
    a list of receipts there. *)
Theorem TransactionReceiptsResponse_null_is_not_empty (TransactionReceipt : ty) :
  declared_as (TransactionReceiptsResponse TransactionReceipt) "receipts"
  = Some (false, TUnion (TArray TransactionReceipt) TNull)
  /\ has_type (TransactionReceiptsResponse TransactionReceipt)
       receipts_not_found = true
  /\ has_type (TransactionReceiptsResponse TransactionReceipt)
       receipts_empty_block = true
  /\ receipts_not_found <> receipts_empty_block
  /\ get "receipts" receipts_not_found = VNull
  /\ get "receipts" receipts_empty_block = VArr []
  /\ is_null (get "receipts" receipts_not_found)
     <> is_null (get "receipts" receipts_empty_block)
  /\ (forall v,
        has_type (TransactionReceiptsResponse TransactionReceipt) v = true ->
        get "receipts" v = VNull
        \/ exists xs, get "receipts" v = VArr xs
                      /\ Forall (fun x => has_type TransactionReceipt x = true)
                           xs).
Proof.
  split; [reflexivity|]. split; [vm_compute; reflexivity|].
  split; [vm_compute; reflexivity|].
  assert (Hn : get "receipts" receipts_not_found = VNull)
    by (vm_compute; reflexivity).
  assert (He : get "receipts" receipts_empty_block = VArr [])
    by (vm_compute; reflexivity).
  split; [intros Heq; rewrite Heq, He in Hn; discriminate|].
  split; [exact Hn|]. split; [exact He|].
  split; [rewrite Hn, He; discriminate|].
  intros v H. unfold TransactionReceiptsResponse in H.
  destruct (has_type_required _ _ _ "receipts"
              (nullable (TArray TransactionReceipt)) H) as [_ Hr];
    [simpl; auto|].
  apply has_type_nullable in Hr as [->|Hr]; [by left | right].
  by apply has_type_array.
Qed.

Lemma TransactionReceiptsResponse_null_is_not_empty_witness :
  has_type (TransactionReceiptsResponse TAny) receipts_empty_block = true
  /\ (get "receipts" receipts_empty_block = VNull
      \/ exists xs, get "receipts" receipts_empty_block = VArr xs
                    /\ Forall (fun x => has_type TAny x = true) xs).
Proof.
  split; [vm_compute; reflexivity|].
  destruct (TransactionReceiptsResponse_null_is_not_empty TAny)
    as (_ & _ & _ & _ & _ & _ & _ & H).
  apply (H receipts_empty_block). vm_compute; reflexivity.
Defined.

(** ** Private transactions *)

(** C9. [SendPrivateTransactionOptions] declares [fast] as a required
    boolean: every value of the type has the property, holding a boolean,
    and the object that omits it is not a value of the type. *)
Theorem SendPrivateTransactionOptions_fast_required (v : value) :
  has_type SendPrivateTransactionOptions v = true ->
  declared_as SendPrivateTransactionOptions "fast" = Some (false, TBoolean)
  /\ has_prop "fast" v = true
  /\ (exists b, get "fast" v = VBool b)
  /\ v <> obj [].
Proof.
  intros H. split; [reflexivity|].
  destruct (has_type_required _ _ _ "fast" TBoolean H) as [Hp Hb];
    [simpl; auto|].
  split; [exact Hp|]. split; [by apply has_type_boolean|].
  intros ->. vm_compute in Hp. discriminate.
Qed.

Lemma SendPrivateTransactionOptions_fast_required_witness :
  has_type SendPrivateTransactionOptions (obj [ ("fast", VBool false) ]) = true
  /\ has_prop "fast" (obj [ ("fast", VBool false) ]) = true
  /\ has_type SendPrivateTransactionOptions (obj []) = false.
Proof.
  split; [vm_compute; reflexivity|].
  split; [|vm_compute; reflexivity].
  apply (SendPrivateTransactionOptions_fast_required
           (obj [ ("fast", VBool false) ])).
  vm_compute; reflexivity.
Defined.

(** ** NFT metadata *)

Lemma declares_In ps k : declares ps k = true <-> In k (map fst ps).
Proof.
  unfold declares. rewrite existsb_exists, in_map_iff. split.
  - intros (p & Hin & Heq). apply String.eqb_eq in Heq. by exists p.
  - intros (p & Heq & Hin). exists p. split; [done|]. by apply String.eqb_eq.
Qed.

(** Writing an undeclared property does not disturb the declared ones. *)
Lemma props_ok_insert_undeclared chk ps (m : gmap string value) k x :
  declares ps k = false ->
  forallb (prop_ok chk (<[k:=x]> m)) ps = forallb (prop_ok chk m) ps.
Proof.
  induction ps as [|[k' [o t]] ps IH]; [reflexivity|].
  unfold declares. cbn [existsb fst]. intros H.
  apply orb_false_iff in H as [Hk Hps]. apply String.eqb_neq in Hk.
  cbn [forallb prop_ok]. rewrite lookup_insert_ne by done.
  f_equal. by apply IH.
Qed.

(** Interfaces are open: an object stays in an interface when it gains a
    property the interface does not declare, provided the index signature,
    if there is one, admits the new value. *)
Lemma has_type_insert_undeclared ps idx (m : gmap string value) k x :
  declares ps k = false ->
  (forall it, idx = Some it -> has_type it x = true) ->
  has_type (TInterface ps idx) (VObj m) = true ->
  has_type (TInterface ps idx) (VObj (<[k:=x]> m)) = true.
Proof.
  intros Hk Hx. rewrite !has_type_interface, !andb_true_iff.
  intros [Hps Hidx]. split.
  - by rewrite props_ok_insert_undeclared.
  - destruct idx as [it|]; [|reflexivity]. cbn [index_ok] in *.
    rewrite forallb_forall in Hidx. apply forallb_forall.
    intros [k' x'] Hin. cbn [fst snd].
    apply list_elem_of_In, elem_of_map_to_list, lookup_insert_Some in Hin.
    destruct Hin as [[<- <-]|[Hne Hin]].
    + rewrite (Hx it eq_refl). apply orb_true_r.
    + apply (Hidx (k', x')).
      by apply list_elem_of_In, elem_of_map_to_list.
Qed.

(** C10. Every named field of [NftMetadata] is optional and the type has the
    index signature [Record<string, any>]: the empty record is a value of
    the type (so no field is guaranteed present), any property name is
    accepted in a literal, and a value stays an [NftMetadata] when any
    further string-keyed property, of any value, is added. *)
Theorem NftMetadata_all_optional_and_open :
  declared_names NftMetadata
  = [ "name"; "description"; "image"; "external_url"; "background_color";
      "attributes" ]
  /\ all_optional NftMetadata = true
  /\ index_signature NftMetadata = Some TAny
  /\ has_type NftMetadata (obj []) = true
  /\ (forall k, has_prop k (obj []) = false)
  /\ (forall k, known_property NftMetadata k = true)
  /\ (forall (m : gmap string value) k x,
        ~ In k (declared_names NftMetadata) ->
        has_type NftMetadata (VObj m) = true ->
        has_type NftMetadata (VObj (<[k:=x]> m)) = true).
Proof.
  split; [reflexivity|]. split; [reflexivity|]. split; [reflexivity|].
  split; [vm_compute; reflexivity|].
  split.
  { intros k. unfold obj, has_prop. cbn [list_to_map foldr].
    apply bool_decide_eq_false. rewrite lookup_empty. by intros [? ?]. }
  split.
  { intros k. unfold NftMetadata, TRecord, interface_extends.
    cbn [known_property]. apply orb_true_r. }
  intros m k x Hk. unfold NftMetadata, TRecord, interface_extends in *.
  apply has_type_insert_undeclared.
  - destruct (declares _ k) eqn:E; [|reflexivity].
    apply declares_In in E. contradiction.
  - intros it [= <-]. reflexivity.
Qed.

Lemma NftMetadata_all_optional_and_open_witness :
  has_type NftMetadata (obj [ ("name", VStr "Bored Ape #1") ]) = true
  /\ has_type NftMetadata
       (VObj (<["edition" := VNum 7]>
                (list_to_map [ ("name", VStr "Bored Ape #1") ]))) = true.
Proof.
  split; [vm_compute; reflexivity|].
  destruct NftMetadata_all_optional_and_open as (_ & _ & _ & _ & _ & _ & H).
  apply H; [|vm_compute; reflexivity].
  vm_compute. intuition discriminate.
Defined.

(** ** NFT query options *)

(** Every owner-scoped base options value asks to omit metadata. *)
Lemma GetBaseNftsForOwnerOptions_omits (v : value) :
  has_type GetBaseNftsForOwnerOptions v = true ->
  get "omitMetadata" v = VBool true.
Proof.
  intros H.
  destruct (has_type_required _ _ _ "omitMetadata" (TLitBool true) H)
    as [_ Ho]; [simpl; auto 10|].
  by apply has_type_lit_bool.
Qed.

(** Every contract-scoped base options value asks to include it. *)
Lemma GetBaseNftsForContractOptions_includes (v : value) :
  has_type GetBaseNftsForContractOptions v = true ->
  get "omitMetadata" v = VBool false.
Proof.
  intros H.
  destruct (has_type_required _ _ _ "omitMetadata" (TLitBool false) H)
    as [_ Ho]; [simpl; auto 10|].
  by apply has_type_lit_bool.
Qed.

(** In the full-metadata option types the flag is absent, [undefined] or a
    boolean. *)
Lemma GetNftsForOwnerOptions_flag (v : value) :
  has_type GetNftsForOwnerOptions v = true ->
  get "omitMetadata" v = VUndefined \/ exists b, get "omitMetadata" v = VBool b.
Proof.
  intros H.
  destruct (has_type_optional _ _ _ "omitMetadata" TBoolean H) as [Hu|Hb];
    [simpl; auto 10 | by left | right; by apply has_type_boolean].
Qed.

Lemma GetNftsForContractOptions_flag (v : value) :
  has_type GetNftsForContractOptions v = true ->
  get "omitMetadata" v = VUndefined \/ exists b, get "omitMetadata" v = VBool b.
Proof.
  intros H.
  destruct (has_type_optional _ _ _ "omitMetadata" TBoolean H) as [Hu|Hb];
    [simpl; auto 10 | by left | right; by apply has_type_boolean].
Qed.

(** X2.  The owner-scoped base options type is a subtype of the full one: the
    literal type of the flag narrows [boolean], and the remaining properties
    are declared alike. *)
Lemma GetBaseNftsForOwnerOptions_sub (v : value) :
  has_type GetBaseNftsForOwnerOptions v = true ->
  has_type GetNftsForOwnerOptions v = true.
Proof.
  destruct v as [| | | | | |m]; try discriminate.
  unfold GetBaseNftsForOwnerOptions, GetNftsForOwnerOptions.
  rewrite !has_type_interface.
  cbn [forallb prop_ok req opt index_ok].
  destruct (m !! "omitMetadata") as [x|].
  - destruct x as [| |[]| | | |];
      cbn [has_type is_undefined Bool.eqb orb andb];
      rewrite ?andb_false_r; done.
  - cbn [andb]. rewrite ?andb_false_r. done.
Qed.

Lemma GetBaseNftsForOwnerOptions_sub_witness :
  has_type GetBaseNftsForOwnerOptions owner_base_request = true
  /\ has_type GetNftsForOwnerOptions owner_base_request = true.
Proof.
  split; [vm_compute; reflexivity|].
  apply (GetBaseNftsForOwnerOptions_sub owner_base_request).
  vm_compute; reflexivity.
Defined.

(** C2. The two full-metadata option types declare [omitMetadata] as an
    optional boolean and [GetBaseNftsForOwnerOptions] declares it as the
    required literal [true]; [GetBaseNftsForContractOptions], however,
    declares it as the required literal [false].  So a contract-scoped
    request that asks to omit metadata is not a value of the base options
    type, and the only [omitMetadata] the base type admits is the one that
    asks for metadata, which the full-metadata type admits as well. *)
Theorem GetBaseNftsForContractOptions_omitMetadata_literal :
  declared_as GetNftsForOwnerOptions "omitMetadata" = Some (true, TBoolean)
  /\ declared_as GetNftsForContractOptions "omitMetadata"
     = Some (true, TBoolean)
  /\ declared_as GetBaseNftsForOwnerOptions "omitMetadata"
     = Some (false, TLitBool true)
  /\ declared_as GetBaseNftsForContractOptions "omitMetadata"
     = Some (false, TLitBool false)
  /\ has_type GetBaseNftsForOwnerOptions (obj [ ("omitMetadata", VBool true) ])
     = true
  /\ has_type GetBaseNftsForContractOptions
       (obj [ ("omitMetadata", VBool true) ]) = false
  /\ has_type GetBaseNftsForContractOptions
       (obj [ ("omitMetadata", VBool false) ]) = true
  /\ has_type GetNftsForContractOptions
       (obj [ ("omitMetadata", VBool false) ]) = true.
Proof. repeat split; vm_compute; reflexivity. Qed.

(** ** How the membership test behaves under updates and extension *)

Lemma has_type_interface_closed ps m :
  has_type (TInterface ps None) (VObj m) = forallb (prop_ok has_type m) ps.
Proof. rewrite has_type_interface. apply andb_true_r. Qed.

Lemma prop_ok_req chk m k t :
  prop_ok chk m (req k t) = has_prop k (VObj m) && chk t (get k (VObj m)).
Proof.
  unfold prop_ok, req, has_prop, get. by destruct (m !! k) as [x|].
Qed.

Lemma prop_ok_opt chk m k t :
  prop_ok chk m (opt k t)
  = is_undefined (get k (VObj m)) || chk t (get k (VObj m)).
Proof. unfold prop_ok, opt, get. by destruct (m !! k) as [x|]. Qed.

(** A property typed at [a] is typed at any [b] that contains [a]. *)
Lemma prop_ok_mono m k o a b :
  (forall x, has_type a x = true -> has_type b x = true) ->
  prop_ok has_type m (k, (o, a)) = true ->
  prop_ok has_type m (k, (o, b)) = true.
Proof.
  intros Hab. unfold prop_ok. destruct (m !! k) as [x|]; [|done].
  rewrite !orb_true_iff. intros [H|H]; [by left | right; by apply Hab].
Qed.

(** Arrays are covariant. *)
Lemma has_type_array_mono a b v :
  (forall x, has_type a x = true -> has_type b x = true) ->
  has_type (TArray a) v = true -> has_type (TArray b) v = true.
Proof.
  intros Hab. destruct v as [| | | | |xs|]; try discriminate. simpl.
  rewrite !forallb_forall. intros H x Hx. apply Hab, H, Hx.
Qed.


(** Writing a declared property with a value that every declaration of it
    admits keeps an object in the interface. *)
Lemma has_type_insert_declared ps idx (m : gmap string value) k x :
  declares ps k = true ->
  admits ps k x = true ->
  has_type (TInterface ps idx) (VObj m) = true ->
  has_type (TInterface ps idx) (VObj (<[k:=x]> m)) = true.
Proof.
  intros Hd Hk. rewrite !has_type_interface, !andb_true_iff.
  intros [Hps Hidx]. split.
  - unfold admits in Hk. rewrite forallb_forall in Hk, Hps.
    apply forallb_forall. intros [k' [o t]] Hin.
    specialize (Hk _ Hin). specialize (Hps _ Hin). cbn [fst snd] in Hk.
    unfold prop_ok in *. destruct (String.eqb k k') eqn:E.
    + apply String.eqb_eq in E as <-. rewrite lookup_insert_eq.
      cbn [negb orb] in Hk. rewrite Hk. apply orb_true_r.
    + apply String.eqb_neq in E. by rewrite lookup_insert_ne.
  - destruct idx as [it|]; [|reflexivity]. cbn [index_ok] in *.
    rewrite forallb_forall in Hidx. apply forallb_forall.
    intros [k' x'] Hin. cbn [fst snd].
    apply list_elem_of_In, elem_of_map_to_list, lookup_insert_Some in Hin.
    destruct Hin as [[<- <-]|[Hne Hin]].
    + by rewrite Hd.
    + apply (Hidx (k', x')).
      by apply list_elem_of_In, elem_of_map_to_list.
Qed.

(** The empty object is in an interface exactly when every declared
    property is optional. *)
Lemma has_type_empty_object ps idx :
  has_type (TInterface ps idx) (obj []) = all_optional (TInterface ps idx).
Proof.
  unfold obj. cbn [list_to_map foldr all_optional].
  rewrite has_type_interface.
  assert (Hi : index_ok has_type ps idx ∅ = true).
  { destruct idx; [|done]. cbn [index_ok]. by rewrite map_to_list_empty. }
  rewrite Hi, andb_true_r. clear Hi.
  induction ps as [|[k [o t]] ps IH]; [reflexivity|].
  cbn [forallb prop_ok fst snd]. rewrite lookup_empty. by rewrite IH.
Qed.

(** [interface D extends B { own }], when [own] redeclares nothing of [B]
    and [B] has no index signature: the values of [D] are the values of [B]
    that satisfy the declarations of [own]. *)
Lemma interface_extends_fresh bps own v :
  forallb (fun p => negb (declares own p.1)) bps = true ->
  has_type (interface_extends (TInterface bps None) own) v
  = has_type (TInterface bps None) v && has_type (TInterface own None) v.
Proof.
  intros Hf. unfold interface_extends. rewrite forallb_filter_id by exact Hf.
  destruct v as [| | | | | |m]; try reflexivity.
  rewrite !has_type_interface_closed, forallb_app. apply andb_comm.
Qed.

Lemma fresh_single bps k t :
  declares bps k = false ->
  forallb (fun p => negb (declares [req k t] p.1)) bps = true.
Proof.
  intros Hd. apply forallb_forall. intros [k' d] Hin. cbn.
  rewrite orb_false_r. apply negb_true_iff, String.eqb_neq. intros ->.
  assert (declares bps k = true); [|congruence].
  apply declares_In, in_map_iff. by exists (k, d).
Qed.

Lemma has_type_lit_str s v : has_type (TLitStr s) v = true -> v = VStr s.
Proof.
  destruct v as [| | | |c| |]; try discriminate. simpl.
  intros H. apply String.eqb_eq in H. by subst.
Qed.

Lemma has_type_number v : has_type TNumber v = true -> exists n, v = VNum n.
Proof. destruct v; try discriminate. eauto. Qed.

Lemma has_type_nullable_string v :
  has_type (nullable TString) v = true -> v = VNull \/ exists s, v = VStr s.
Proof.
  intros [->|H]%has_type_nullable; [by left | right; by apply has_type_string].
Qed.

(** ** Token-balance requests and responses *)

(** X3.  The [type] property discriminates the two token-balance request
    shapes: an ERC-20 request carries ['erc20'], a default-tokens request
    carries ['DEFAULT_TOKENS'], and no value is both.  Only the ERC-20
    request declares [pageKey], which is left out or a string. *)
Theorem TokenBalancesOptions_discriminated_by_type (v : value) :
  (has_type TokenBalancesOptionsErc20 v = true ->
     get "type" v = VStr "erc20"
     /\ (get "pageKey" v = VUndefined \/ exists k, get "pageKey" v = VStr k))
  /\ (has_type TokenBalancesOptionsDefaultTokens v = true ->
        get "type" v = VStr "DEFAULT_TOKENS")
  /\ has_type TokenBalancesOptionsErc20 v
     && has_type TokenBalancesOptionsDefaultTokens v = false.
Proof.
  assert (He : has_type TokenBalancesOptionsErc20 v = true ->
               get "type" v = VStr "erc20").
  { intros H.
    destruct (has_type_required _ _ _ "type" (TLitStr "erc20") H) as [_ Ht];
      [simpl; auto|].
    by apply has_type_lit_str. }
  assert (Hd : has_type TokenBalancesOptionsDefaultTokens v = true ->
               get "type" v = VStr "DEFAULT_TOKENS").
  { intros H.
    destruct (has_type_required _ _ _ "type" (TLitStr "DEFAULT_TOKENS") H)
      as [_ Ht]; [simpl; auto|].
    by apply has_type_lit_str. }
  split; [|split; [exact Hd|]].
  - intros H. split; [by apply He|].
    destruct (has_type_optional _ _ _ "pageKey" TString H) as [Hu|Hs];
      [simpl; auto | by left | right; by apply has_type_string].
  - destruct (has_type TokenBalancesOptionsErc20 v) eqn:E1; [|reflexivity].
    destruct (has_type TokenBalancesOptionsDefaultTokens v) eqn:E2;
      [|reflexivity].
    specialize (He eq_refl). specialize (Hd eq_refl).
    rewrite He in Hd. discriminate.
Qed.

Lemma TokenBalancesOptions_discriminated_by_type_witness :
  has_type TokenBalancesOptionsErc20 erc20_balances_request = true
  /\ get "type" erc20_balances_request = VStr "erc20"
  /\ (get "pageKey" erc20_balances_request = VUndefined
      \/ exists k, get "pageKey" erc20_balances_request = VStr k).
Proof.
  split; [vm_compute; reflexivity|].
  destruct (TokenBalancesOptions_discriminated_by_type erc20_balances_request)
    as (H & _ & _).
  apply H. vm_compute; reflexivity.
Defined.

(** The shape of one element of [tokenBalances]. *)
Lemma TokenBalance_shape (x : value) :
  has_type TokenBalance x = true ->
  (exists a, get "contractAddress" x = VStr a)
  /\ ((exists b, get "tokenBalance" x = VStr b) /\ get "error" x = VNull
      \/ get "tokenBalance" x = VNull /\ exists e, get "error" x = VStr e).
Proof.
  unfold TokenBalance. rewrite has_type_union. intros H.
  apply orb_true_iff in H as [H|H].
  - destruct (has_type_required _ _ _ "contractAddress" TString H) as [_ Ha];
      [simpl; auto|].
    destruct (has_type_required _ _ _ "tokenBalance" TString H) as [_ Hb];
      [simpl; auto|].
    destruct (has_type_required _ _ _ "error" TNull H) as [_ He];
      [simpl; auto|].
    split; [by apply has_type_string|]. left.
    split; [by apply has_type_string | by apply has_type_null].
  - destruct (has_type_required _ _ _ "contractAddress" TString H) as [_ Ha];
      [simpl; auto|].
    destruct (has_type_required _ _ _ "tokenBalance" TNull H) as [_ Hb];
      [simpl; auto|].
    destruct (has_type_required _ _ _ "error" TString H) as [_ He];
      [simpl; auto|].
    split; [by apply has_type_string|]. right.
    split; [by apply has_type_null | by apply has_type_string].
Qed.

(** X4.  A token-balances response names the queried address and holds a list in
    which every element names its contract and is either a balance without
    an error or an error without a balance: failures are reported per token,
    next to the successes. *)
Theorem TokenBalancesResponse_per_token_results (v : value) :
  has_type TokenBalancesResponse v = true ->
  (exists a, get "address" v = VStr a)
  /\ exists xs,
       get "tokenBalances" v = VArr xs
       /\ Forall
            (fun x =>
               (exists c, get "contractAddress" x = VStr c)
               /\ ((exists b, get "tokenBalance" x = VStr b)
                   /\ get "error" x = VNull
                   \/ get "tokenBalance" x = VNull
                      /\ exists e, get "error" x = VStr e))
            xs.
Proof.
  intros H. unfold TokenBalancesResponse in H.
  destruct (has_type_required _ _ _ "address" TString H) as [_ Ha];
    [simpl; auto|].
  destruct (has_type_required _ _ _ "tokenBalances" (TArray TokenBalance) H)
    as [_ Hb]; [simpl; auto|].
  split; [by apply has_type_string|].
  apply has_type_array in Hb as (xs & -> & Hxs). exists xs. split; [done|].
  eapply Forall_impl; [exact Hxs|]. intros x Hx. by apply TokenBalance_shape.
Qed.

(** X5.  The ERC-20 response is the plain response plus an optional [pageKey]:
    its values are the [TokenBalancesResponse] values whose [pageKey] is
    left out or a string. *)
Theorem TokenBalancesResponseErc20_values (v : value) :
  has_type TokenBalancesResponseErc20 v
  = has_type TokenBalancesResponse v
    && (is_undefined (get "pageKey" v) || has_type TString (get "pageKey" v)).
Proof.
  unfold TokenBalancesResponseErc20, TokenBalancesResponse.
  rewrite interface_extends_fresh by reflexivity.
  destruct v as [| | | | | |m]; try reflexivity.
  f_equal. rewrite has_type_interface_closed. cbn [forallb].
  by rewrite prop_ok_opt, andb_true_r.
Qed.

(** X6.  Every field of a token-metadata response is present; what is unknown is
    [null], not left out. *)
Theorem TokenMetadataResponse_fields_present (v : value) :
  has_type TokenMetadataResponse v = true ->
  (has_prop "name" v = true
   /\ (get "name" v = VNull \/ exists s, get "name" v = VStr s))
  /\ (has_prop "symbol" v = true
      /\ (get "symbol" v = VNull \/ exists s, get "symbol" v = VStr s))
  /\ (has_prop "decimals" v = true
      /\ (get "decimals" v = VNull \/ exists n, get "decimals" v = VNum n))
  /\ (has_prop "logo" v = true
      /\ (get "logo" v = VNull \/ exists s, get "logo" v = VStr s)).
Proof.
  intros H. unfold TokenMetadataResponse in H.
  destruct (has_type_required _ _ _ "name" (nullable TString) H) as [P1 H1];
    [simpl; auto|].
  destruct (has_type_required _ _ _ "symbol" (nullable TString) H) as [P2 H2];
    [simpl; auto|].
  destruct (has_type_required _ _ _ "decimals" (nullable TNumber) H)
    as [P3 H3]; [simpl; auto|].
  destruct (has_type_required _ _ _ "logo" (nullable TString) H) as [P4 H4];
    [simpl; auto|].
  repeat split; try assumption.
  - by apply has_type_nullable_string.
  - by apply has_type_nullable_string.
  - apply has_type_nullable in H3 as [->|H3]; [by left | right].
    by apply has_type_number.
  - by apply has_type_nullable_string.
Qed.

Lemma TokenBalancesResponse_per_token_results_witness :
  has_type TokenBalancesResponse balances_page = true
  /\ exists a, get "address" balances_page = VStr a.
Proof.
  split; [vm_compute; reflexivity|].
  apply (TokenBalancesResponse_per_token_results balances_page).
  vm_compute; reflexivity.
Defined.

Lemma TokenMetadataResponse_fields_present_witness :
  has_type TokenMetadataResponse token_metadata_unknown = true
  /\ has_prop "name" token_metadata_unknown = true
  /\ (get "name" token_metadata_unknown = VNull
      \/ exists s, get "name" token_metadata_unknown = VStr s).
Proof.
  split; [vm_compute; reflexivity|].
  apply (TokenMetadataResponse_fields_present token_metadata_unknown).
  vm_compute; reflexivity.
Defined.

(** ** Floor prices *)

Lemma floor_price_entry (x : value) :
  has_type (TUnion FloorPriceMarketplace FloorPriceError) x = true ->
  ((exists p, get "floorPrice" x = VNum p)
   /\ (exists c, get "priceCurrency" x = VStr c)
   /\ (exists u, get "collectionUrl" x = VStr u)
   /\ (exists t, get "retrievedAt" x = VStr t))
  \/ exists e, get "error" x = VStr e.
Proof.
  rewrite has_type_union. intros H. apply orb_true_iff in H as [H|H].
  - left. unfold FloorPriceMarketplace in H.
    destruct (has_type_required _ _ _ "floorPrice" TNumber H) as [_ H1];
      [simpl; auto|].
    destruct (has_type_required _ _ _ "priceCurrency" TString H) as [_ H2];
      [simpl; auto|].
    destruct (has_type_required _ _ _ "collectionUrl" TString H) as [_ H3];
      [simpl; auto|].
    destruct (has_type_required _ _ _ "retrievedAt" TString H) as [_ H4];
      [simpl; auto|].
    repeat split;
      [by apply has_type_number | by apply has_type_string ..].
  - right. unfold FloorPriceError in H.
    destruct (has_type_required _ _ _ "error" TString H) as [_ He];
      [simpl; auto|].
    by apply has_type_string.
Qed.

(** X7.  A floor-price response always has an entry for each of the two
    marketplaces, and each entry is a full quote (price, currency, URL,
    time) or carries an error string. *)
Theorem GetFloorPriceResponse_per_marketplace (v : value) (k : string) :
  has_type GetFloorPriceResponse v = true ->
  k = "openSea" \/ k = "looksRare" ->
  has_prop k v = true
  /\ (((exists p, get "floorPrice" (get k v) = VNum p)
       /\ (exists c, get "priceCurrency" (get k v) = VStr c)
       /\ (exists u, get "collectionUrl" (get k v) = VStr u)
       /\ (exists t, get "retrievedAt" (get k v) = VStr t))
      \/ exists e, get "error" (get k v) = VStr e).
Proof.
  intros H Hk. unfold GetFloorPriceResponse in H.
  destruct (has_type_required _ _ _ k
              (TUnion FloorPriceMarketplace FloorPriceError) H) as [Hp Hx].
  { destruct Hk as [->| ->]; simpl; auto. }
  split; [exact Hp | by apply floor_price_entry].
Qed.

Lemma GetFloorPriceResponse_per_marketplace_witness :
  has_type GetFloorPriceResponse floor_prices = true
  /\ has_prop "looksRare" floor_prices = true.
Proof.
  split; [vm_compute; reflexivity|].
  apply (GetFloorPriceResponse_per_marketplace floor_prices "looksRare");
    [vm_compute; reflexivity | by right].
Defined.

(** X8.  The two arms of a floor-price entry are not exclusive: a quote that also
    carries an [error] string is still a [FloorPriceMarketplace] and is a
    [FloorPriceError] as well, so the presence of [error] does not rule out
    price fields. *)
Theorem FloorPrice_arms_overlap (m : gmap string value) (e : string) :
  has_type FloorPriceMarketplace (VObj m) = true ->
  has_type FloorPriceMarketplace (VObj (<["error" := VStr e]> m)) = true
  /\ has_type FloorPriceError (VObj (<["error" := VStr e]> m)) = true.
Proof.
  intros H. split.
  - unfold FloorPriceMarketplace in *.
    apply has_type_insert_undeclared; [reflexivity | discriminate | exact H].
  - unfold FloorPriceError. rewrite has_type_interface_closed. cbn [forallb].
    rewrite prop_ok_req. unfold has_prop, get. rewrite lookup_insert_eq.
    reflexivity.
Qed.

Lemma FloorPrice_arms_overlap_witness :
  has_type FloorPriceMarketplace floor_quote = true
  /\ has_type FloorPriceError
       (VObj (<["error" := VStr "stale"]>
                (list_to_map
                   [ ("floorPrice", VNum 12);
                     ("priceCurrency", VStr "ETH");
                     ("collectionUrl", VStr "https://opensea.io/collection/x");
                     ("retrievedAt", VStr "2022-08-01T00:00:00.000Z") ])))
     = true.
Proof.
  split; [vm_compute; reflexivity|].
  apply (FloorPrice_arms_overlap
           (list_to_map
              [ ("floorPrice", VNum 12);
                ("priceCurrency", VStr "ETH");
                ("collectionUrl", VStr "https://opensea.io/collection/x");
                ("retrievedAt", VStr "2022-08-01T00:00:00.000Z") ])
           "stale").
  vm_compute; reflexivity.
Defined.

(** ** Asset transfers: responses *)

Lemma AssetTransfersWithMetadataResult_sub (x : value) :
  has_type AssetTransfersWithMetadataResult x = true ->
  has_type AssetTransfersResult x = true.
Proof.
  rewrite AssetTransfersWithMetadataResult_values.
  intros H. by apply andb_true_iff in H as [H _].
Qed.

(** X9.  A response fetched with metadata can be used wherever a plain response
    is expected: every [AssetTransfersWithMetadataResponse] is an
    [AssetTransfersResponse]. *)
Theorem AssetTransfersWithMetadataResponse_sub (v : value) :
  has_type AssetTransfersWithMetadataResponse v = true ->
  has_type AssetTransfersResponse v = true.
Proof.
  destruct v as [| | | | | |m]; try discriminate.
  unfold AssetTransfersWithMetadataResponse, AssetTransfersResponse.
  rewrite !has_type_interface_closed. cbn [forallb].
  rewrite !andb_true_iff. intros (Ht & Hk & _). repeat split; [|exact Hk].
  unfold req in *. eapply prop_ok_mono; [|exact Ht].
  intros x. apply has_type_array_mono, AssetTransfersWithMetadataResult_sub.
Qed.

Lemma AssetTransfersWithMetadataResponse_sub_witness :
  has_type AssetTransfersWithMetadataResponse transfers_with_metadata_page
  = true
  /\ has_type AssetTransfersResponse transfers_with_metadata_page = true.
Proof.
  split; [vm_compute; reflexivity|].
  apply (AssetTransfersWithMetadataResponse_sub transfers_with_metadata_page).
  vm_compute; reflexivity.
Defined.

(** ** NFT records and responses *)

(** X10.  Whatever interface [Nft] is imported, as long as it has no index
    signature and does not itself declare [balance]: an [OwnedNft] is an
    [Nft] that has a numeric [balance], and nothing else. *)
Theorem OwnedNft_values (nps : list prop_decl) (v : value) :
  declares nps "balance" = false ->
  has_type (OwnedNft (TInterface nps None)) v
  = has_type (TInterface nps None) v
    && (has_prop "balance" v && has_type TNumber (get "balance" v)).
Proof.
  intros Hd. unfold OwnedNft.
  rewrite interface_extends_fresh by (by apply fresh_single).
  destruct v as [| | | | | |m]; try reflexivity.
  f_equal. rewrite has_type_interface_closed. cbn [forallb].
  by rewrite prop_ok_req, andb_true_r.
Qed.

Lemma OwnedNft_values_witness :
  has_type (OwnedNft sample_BaseNft) sample_nft
  = has_type sample_BaseNft sample_nft
    && (has_prop "balance" sample_nft
        && has_type TNumber (get "balance" sample_nft))
  /\ has_type (OwnedNft sample_BaseNft) sample_nft = true.
Proof.
  split; [|vm_compute; reflexivity].
  apply (OwnedNft_values
           [ req "tokenId" TString; req "tokenType" NftTokenType ] sample_nft).
  reflexivity.
Defined.

(** X11.  If every [Nft] is a [BaseNft], a contract-scoped response with metadata
    is a base response, and so is an owner-scoped one (the two imported
    types being interfaces without index signature that do not declare
    [balance]). *)
Theorem NftResponses_with_metadata_are_base_responses
    (nps bps : list prop_decl) (v : value) :
  (forall x, has_type (TInterface nps None) x = true ->
             has_type (TInterface bps None) x = true) ->
  declares nps "balance" = false ->
  declares bps "balance" = false ->
  (has_type (NftContractNftsResponse (TInterface nps None)) v = true ->
   has_type (NftContractBaseNftsResponse (TInterface bps None)) v = true)
  /\ (has_type (OwnedNftsResponse (TInterface nps None)) v = true ->
      has_type (OwnedBaseNftsResponse (TInterface bps None)) v = true).
Proof.
  intros Hsub Hn Hb. split.
  - destruct v as [| | | | | |m]; try discriminate.
    unfold NftContractNftsResponse, NftContractBaseNftsResponse.
    rewrite !has_type_interface_closed. cbn [forallb].
    rewrite !andb_true_iff. intros (Ht & Hk & _). repeat split; [|exact Hk].
    unfold req in *. eapply prop_ok_mono; [|exact Ht].
    intros x. by apply has_type_array_mono.
  - destruct v as [| | | | | |m]; try discriminate.
    unfold OwnedNftsResponse, OwnedBaseNftsResponse.
    rewrite !has_type_interface_closed. cbn [forallb].
    rewrite !andb_true_iff. intros (Ht & Hk & Hc & _).
    repeat split; [|exact Hk|exact Hc].
    unfold req in *. eapply prop_ok_mono; [|exact Ht].
    intros x. apply has_type_array_mono. intros y.
    unfold OwnedBaseNft, OwnedNft.
    rewrite !interface_extends_fresh by (by apply fresh_single).
    rewrite !andb_true_iff. intros [H1 H2]. split; [by apply Hsub | exact H2].
Qed.

Lemma sample_Nft_sub (x : value) :
  has_type sample_Nft x = true -> has_type sample_BaseNft x = true.
Proof.
  unfold sample_Nft, sample_BaseNft.
  rewrite interface_extends_fresh by reflexivity.
  intros H. by apply andb_true_iff in H as [H _].
Qed.

Lemma NftResponses_with_metadata_are_base_responses_witness :
  has_type (NftContractNftsResponse sample_Nft) contract_nfts_page = true
  /\ has_type (NftContractBaseNftsResponse sample_BaseNft) contract_nfts_page
     = true
  /\ has_type (OwnedNftsResponse sample_Nft) owned_nfts_page = true
  /\ has_type (OwnedBaseNftsResponse sample_BaseNft) owned_nfts_page = true.
Proof.
  split; [vm_compute; reflexivity|].
  split.
  - apply (NftResponses_with_metadata_are_base_responses
             [ req "title" TString; req "tokenId" TString;
               req "tokenType" NftTokenType ]
             [ req "tokenId" TString; req "tokenType" NftTokenType ]
             contract_nfts_page);
      [exact sample_Nft_sub | reflexivity | reflexivity
       | vm_compute; reflexivity].
  - split; vm_compute; reflexivity.
Defined.

(** X12.  A [Media] record is a [TokenUri] record (it has [raw] and [gateway])
    whose [thumbnail], [format] and [size], when given, are two strings and a
    number. *)
Theorem Media_values (v : value) :
  has_type Media v
  = has_type TokenUri v
    && ((is_undefined (get "thumbnail" v)
         || has_type TString (get "thumbnail" v))
        && (is_undefined (get "format" v) || has_type TString (get "format" v))
        && (is_undefined (get "size" v) || has_type TNumber (get "size" v))).
Proof.
  destruct v as [| | | | | |m]; try reflexivity.
  unfold Media, TokenUri. rewrite !has_type_interface_closed. cbn [forallb].
  rewrite !prop_ok_opt, !andb_true_r, !andb_assoc. reflexivity.
Qed.

(** ** Pending-transaction subscriptions *)

Lemma has_type_address_filter (x : value) :
  x = VUndefined \/ has_type (TUnion TString (TArray TString)) x = true ->
  address_filter x.
Proof.
  intros [->|H]; [by left|]. right.
  rewrite has_type_union in H. apply orb_true_iff in H as [H|H].
  - left. by apply has_type_string.
  - right. apply has_type_array in H as (xs & -> & Hxs). exists xs.
    split; [done|]. eapply Forall_impl; [exact Hxs|].
    intros y Hy. by apply has_type_string.
Qed.

(** X13.  A pending-transactions filter always names the method
    ['alchemy_pendingTransactions']; each address filter is left out, one
    address or a list of addresses; [hashesOnly] is left out or a boolean. *)
Theorem AlchemyPendingTransactionsEventFilter_shape (v : value) :
  has_type AlchemyPendingTransactionsEventFilter v = true ->
  get "method" v = VStr "alchemy_pendingTransactions"
  /\ address_filter (get "fromAddress" v)
  /\ address_filter (get "toAddress" v)
  /\ (get "hashesOnly" v = VUndefined \/ exists b, get "hashesOnly" v = VBool b).
Proof.
  intros H. unfold AlchemyPendingTransactionsEventFilter in H.
  destruct (has_type_required _ _ _ "method"
              (TLitStr "alchemy_pendingTransactions") H) as [_ Hm];
    [simpl; auto|].
  pose proof (has_type_optional _ _ _ "fromAddress"
                (TUnion TString (TArray TString)) H) as Hf.
  pose proof (has_type_optional _ _ _ "toAddress"
                (TUnion TString (TArray TString)) H) as Ht.
  pose proof (has_type_optional _ _ _ "hashesOnly" TBoolean H) as Hh.
  split; [by apply has_type_lit_str|].
  split; [apply has_type_address_filter, Hf; simpl; auto|].
  split; [apply has_type_address_filter, Ht; simpl; auto|].
  destruct Hh as [Hh|Hh]; [simpl; auto | by left | right].
  by apply has_type_boolean.
Qed.

Lemma AlchemyPendingTransactionsEventFilter_shape_witness :
  has_type AlchemyPendingTransactionsEventFilter pending_filter = true
  /\ get "method" pending_filter = VStr "alchemy_pendingTransactions"
  /\ address_filter (get "fromAddress" pending_filter)
  /\ address_filter (get "toAddress" pending_filter)
  /\ (get "hashesOnly" pending_filter = VUndefined
      \/ exists b, get "hashesOnly" pending_filter = VBool b).
Proof.
  split; [vm_compute; reflexivity|].
  apply (AlchemyPendingTransactionsEventFilter_shape pending_filter).
  vm_compute; reflexivity.
Defined.

(** ** Pagination and optional settings *)







(** ** What the request types leave to the caller *)

Lemma has_type_string_list (ss : list string) :
  has_type (TArray TString) (VArr (map VStr ss)) = true.
Proof. simpl. induction ss as [|s ss IH]; [reflexivity | exact IH]. Qed.

(** X16.  The transfer request requires [category], a list whose elements are
    among the six categories; the list may be empty, the type does not ask
    for a category to be named. *)
Theorem AssetTransfersParams_category_list :
  (forall v,
     has_type AssetTransfersParams v = true ->
     has_prop "category" v = true
     /\ exists cs,
          get "category" v = VArr cs
          /\ Forall
               (fun c =>
                  exists s, c = VStr s
                            /\ In s [ "external"; "internal"; "erc20";
                                      "erc721"; "erc1155"; "specialnft" ])
               cs)
  /\ has_type AssetTransfersParams (obj [ ("category", VArr []) ]) = true
  /\ has_type AssetTransfersParams (obj []) = false.
Proof.
  split; [|split; vm_compute; reflexivity].
  intros v H. unfold AssetTransfersParams in H.
  destruct (has_type_required _ _ _ "category"
              (TArray AssetTransfersCategory) H) as [Hp Hc];
    [simpl; auto 10|].
  split; [exact Hp|].
  apply has_type_array in Hc as (cs & -> & Hcs). exists cs. split; [done|].
  eapply Forall_impl; [exact Hcs|]. intros c Hc. by apply has_type_enum in Hc.
Qed.

Lemma AssetTransfersParams_category_list_witness :
  has_type AssetTransfersParams transfers_request = true
  /\ has_prop "category" transfers_request = true.
Proof.
  split; [vm_compute; reflexivity|].
  destruct AssetTransfersParams_category_list as (H & _ & _).
  apply (H transfers_request). vm_compute; reflexivity.
Defined.

(** X17.  The limits that the comments of the owner-scoped options state (at most
    20 contract addresses, a page size of at most 100) are not part of the
    type: any number and any list of strings are admitted, in the options
    with metadata and, with [omitMetadata: true], in the base options. *)
Theorem GetNftsForOwnerOptions_limits_not_in_type
    (n : Z) (addresses : list string) :
  has_type GetNftsForOwnerOptions
    (obj [ ("pageSize", VNum n);
           ("contractAddresses", VArr (map VStr addresses)) ]) = true
  /\ has_type GetBaseNftsForOwnerOptions
       (obj [ ("omitMetadata", VBool true);
              ("pageSize", VNum n);
              ("contractAddresses", VArr (map VStr addresses)) ]) = true.
Proof.
  pose proof (has_type_string_list addresses) as Hl.
  split.
  - change (obj [ ("pageSize", VNum n);
                  ("contractAddresses", VArr (map VStr addresses)) ])
      with (VObj (<["pageSize" := VNum n]>
                    (<["contractAddresses" := VArr (map VStr addresses)]> ∅))).
    unfold GetNftsForOwnerOptions.
    apply has_type_insert_declared; [reflexivity | reflexivity |].
    apply has_type_insert_declared; [reflexivity | |].
    + unfold admits, opt. cbn [forallb fst snd String.eqb Ascii.eqb Bool.eqb
                                 negb orb andb]. by rewrite Hl.
    + change (VObj ∅) with (obj []). by rewrite has_type_empty_object.
  - change (obj [ ("omitMetadata", VBool true);
                  ("pageSize", VNum n);
                  ("contractAddresses", VArr (map VStr addresses)) ])
      with (VObj (<["omitMetadata" := VBool true]>
                    (<["pageSize" := VNum n]>
                       (<["contractAddresses" := VArr (map VStr addresses)]>
                          ∅)))).
    unfold GetBaseNftsForOwnerOptions.
    rewrite has_type_interface_closed.
    cbn [forallb]. rewrite !prop_ok_opt, prop_ok_req.
    unfold get, has_prop.
    rewrite lookup_insert_eq.
    rewrite !(lookup_insert_ne _ "omitMetadata") by done.
    rewrite lookup_insert_eq.
    rewrite !(lookup_insert_ne _ "pageSize") by done.
    rewrite lookup_insert_eq.
    rewrite !(lookup_insert_ne _ "contractAddresses") by done.
    rewrite !lookup_empty. cbn [default from_option id is_undefined orb andb].
    rewrite Hl. reflexivity.
Qed.

(** X18.  An owner-scoped response always carries [totalCount] and the list
    [ownedNfts], and every element of the list is an [Nft] with a numeric
    [balance] (for an imported [Nft] without index signature that does not
    itself declare [balance]). *)
Theorem OwnedNftsResponse_shape (nps : list prop_decl) (v : value) :
  declares nps "balance" = false ->
  has_type (OwnedNftsResponse (TInterface nps None)) v = true ->
  (exists n, get "totalCount" v = VNum n)
  /\ (get "pageKey" v = VUndefined \/ exists k, get "pageKey" v = VStr k)
  /\ exists xs,
       get "ownedNfts" v = VArr xs
       /\ Forall
            (fun x =>
               has_type (TInterface nps None) x = true
               /\ exists b, get "balance" x = VNum b)
            xs.
Proof.
  intros Hd H. unfold OwnedNftsResponse in H.
  destruct (has_type_required _ _ _ "totalCount" TNumber H) as [_ Hc];
    [simpl; auto|].
  destruct (has_type_required _ _ _ "ownedNfts"
              (TArray (OwnedNft (TInterface nps None))) H) as [_ Ho];
    [simpl; auto|].
  pose proof (has_type_optional _ _ _ "pageKey" TString H) as Hk.
  split; [by apply has_type_number|]. split.
  { destruct Hk as [Hk|Hk]; [simpl; auto | by left | right].
    by apply has_type_string. }
  apply has_type_array in Ho as (xs & -> & Hxs). exists xs. split; [done|].
  eapply Forall_impl; [exact Hxs|]. intros x Hx. cbn beta in Hx.
  unfold OwnedNft in Hx.
  rewrite interface_extends_fresh in Hx by (by apply fresh_single).
  apply andb_true_iff in Hx as [Hn Hb]. split; [exact Hn|].
  destruct (has_type_required _ _ _ "balance" TNumber Hb) as [_ Hb'];
    [simpl; auto|].
  by apply has_type_number.
Qed.

Lemma OwnedNftsResponse_shape_witness :
  has_type (OwnedNftsResponse sample_BaseNft) owned_nfts_page = true
  /\ exists n, get "totalCount" owned_nfts_page = VNum n.
Proof.
  split; [vm_compute; reflexivity|].
  apply (OwnedNftsResponse_shape
           [ req "tokenId" TString; req "tokenType" NftTokenType ]
           owned_nfts_page);
    [reflexivity | vm_compute; reflexivity].
Defined.
